(** * UniversalRecipeAdapter: the recipe-adapter workflow of [recipe_adapter.py]

    A shallow embedding of the module and proofs of its specified
    properties.  Python values are an inductive type, dictionaries are
    finite maps, floats are IEEE binary64 numbers (Rocq's primitive floats),
    and effectful code runs in a small monad that records the observable
    events (console lines, tool calls, model calls) and may raise. *)

From Stdlib Require Import ZArith String Ascii List Floats Lia.
From stdpp Require Import base option strings gmap list.
Import ListNotations.

Local Open Scope string_scope.
Local Open Scope list_scope.

(** ** Python values

    The values that reach the workflow through [List[Any]]: what a JSON
    document or a Python literal of the module can hold.  A [str] is the
    sequence of its characters; characters outside ASCII are caseless and
    are neither digits nor white space. *)

#[warnings="-register-all"]
Inductive pyval : Type :=
  | PNone
  | PBool (b : bool)
  | PInt (z : Z)
  | PFloat (f : float)
  | PStr (s : string)
  | PList (l : list pyval)
  | PDict (d : gmap string pyval).

(** Exceptions.  All of them derive from [Exception] but
    [KeyboardInterrupt], which derives from [BaseException] alone. *)
Inductive exn : Type :=
  | TypeError
  | ValueError
  | KeyError
  | AttributeError
  | OverflowError
  | ValidationError (field : string)
  | ProviderError (msg : string)
  | KeyboardInterrupt.

Definition is_Exception (e : exn) : bool :=
  match e with KeyboardInterrupt => false | _ => true end.

(** Two characters that a string literal cannot hold directly. *)
Definition nl : string := String (ascii_of_nat 10) EmptyString.
Definition dquote : string := String (ascii_of_nat 34) EmptyString.

(** ** Builtins *)

Module Builtins.

(** [str.lower()] *)
Definition lower_char (c : ascii) : ascii :=
  let n := nat_of_ascii c in
  if (65 <=? n)%nat && (n <=? 90)%nat then ascii_of_nat (n + 32) else c.

Fixpoint lower (s : string) : string :=
  match s with
  | EmptyString => EmptyString
  | String c r => String (lower_char c) (lower r)
  end.

(** [needle in haystack] on two [str]: substring test. *)
Definition is_substring (needle haystack : string) : bool :=
  match String.index 0 needle haystack with Some _ => true | None => false end.

(** [key == x] for a [str] key and any value. *)
Definition str_eq (key : string) (x : pyval) : bool :=
  match x with PStr s => bool_decide (key = s) | _ => false end.

(** [key in conv], the containment operator with a [str] on the left. *)
Definition contains (key : string) (conv : pyval) : exn + bool :=
  match conv with
  | PDict d => inr (bool_decide (is_Some (d !! key)))
  | PStr s => inr (is_substring key s)
  | PList l => inr (existsb (str_eq key) l)
  | PNone | PBool _ | PInt _ | PFloat _ => inl TypeError
  end.

(** [conv[key]], subscription with a [str] key. *)
Definition getitem (conv : pyval) (key : string) : exn + pyval :=
  match conv with
  | PDict d => match d !! key with Some v => inr v | None => inl KeyError end
  | _ => inl TypeError
  end.

(** [unit.lower()] on any value: only a [str] has the method. *)
Definition lower_method (unit : pyval) : exn + string :=
  match unit with
  | PStr s => inr (lower s)
  | _ => inl AttributeError
  end.

(** [s * n] *)
Fixpoint str_mul (s : string) (n : nat) : string :=
  match n with
  | O => EmptyString
  | S n' => s +:+ str_mul s n'
  end.

(** *** [float(x)] *)

Definition is_space (c : ascii) : bool :=
  let n := nat_of_ascii c in
  ((9 <=? n)%nat && (n <=? 13)%nat) || (n =? 32)%nat.

Definition digit_val (c : ascii) : option Z :=
  let n := nat_of_ascii c in
  if (48 <=? n)%nat && (n <=? 57)%nat then Some (Z.of_nat n - 48)%Z else None.

Definition is_digit (c : ascii) : bool :=
  match digit_val c with Some _ => true | None => false end.

Fixpoint lstrip (l : list ascii) : list ascii :=
  match l with
  | c :: r => if is_space c then lstrip r else l
  | [] => []
  end.

Definition strip (l : list ascii) : list ascii :=
  rev (lstrip (rev (lstrip l))).

(** Digit-group underscores: one may stand only between two digits. *)
Fixpoint remove_underscores (prev : ascii) (l : list ascii) : option (list ascii) :=
  match l with
  | [] => if Ascii.eqb prev "_" then None else Some []
  | c :: r =>
      if Ascii.eqb c "_" then
        if is_digit prev then remove_underscores c r else None
      else if Ascii.eqb prev "_" && negb (is_digit c) then None
      else cons c <$> remove_underscores c r
  end.

(** The longest prefix of digits: its value, its length, and the rest. *)
Fixpoint take_digits (l : list ascii) (acc : Z) (count : nat)
  : Z * nat * list ascii :=
  match l with
  | c :: r =>
      match digit_val c with
      | Some d => take_digits r (10 * acc + d)%Z (S count)
      | None => (acc, count, l)
      end
  | [] => (acc, count, [])
  end.

Definition take_sign (l : list ascii) : bool * list ascii :=
  match l with
  | "-"%char :: r => (true, r)
  | "+"%char :: r => (false, r)
  | _ => (false, l)
  end.

(** The binary64 number nearest to [m * 10^e] (ties to even), [0 <= m]. *)
Definition round_decimal (neg : bool) (m e : Z) : float :=
  let sf :=
    if (m =? 0)%Z then S754_zero false
    else if (0 <=? e)%Z then binary_normalize prec emax (m * 10 ^ e) 0 false
    else
      let d := (10 ^ (- e))%Z in
      let k := (Z.log2 d + 65)%Z in
      let n := (m * 2 ^ k)%Z in
      let sticky := if (n mod d =? 0)%Z then 0%Z else 1%Z in
      binary_normalize prec emax (2 * (n / d) + sticky) (- (k + 1)) false in
  let f := SF2Prim sf in
  if neg then (- f)%float else f.

(** An exponent part [e[sign]digits] that ends the text, or no text. *)
Definition parse_exponent (l : list ascii) : option Z :=
  match l with
  | [] => Some 0%Z
  | c :: r =>
      if Ascii.eqb c "e" || Ascii.eqb c "E" then
        let '(neg, r1) := take_sign r in
        match take_digits r1 0 0 with
        | (_, O, _) => None
        | (x, _, []) => Some (if neg then - x else x)%Z
        | _ => None
        end
      else None
  end.

Definition parse_decimal (l : list ascii) : option float :=
  let '(neg, l1) := take_sign l in
  let '(ip, ni, l2) := take_digits l1 0 0 in
  let '(m, nf, l3) :=
    match l2 with
    | "."%char :: r => let '(m, n, l3) := take_digits r ip 0 in (m, n, l3)
    | _ => (ip, O, l2)
    end in
  match (ni + nf)%nat with
  | O => None
  | _ => (fun x => round_decimal neg m (x - Z.of_nat nf)) <$> parse_exponent l3
  end.

Definition parse_inf_or_nan (l : list ascii) : option float :=
  let '(neg, l1) := take_sign l in
  let word := lower (string_of_list_ascii l1) in
  if bool_decide (word = "inf") || bool_decide (word = "infinity") then
    Some (if neg then neg_infinity else infinity)
  else if bool_decide (word = "nan") then Some nan
  else None.

(** [float(s)] for a [str]; [None] stands for [ValueError].  Underscores
    are taken out first, then the white space around the number; what is
    left must be a decimal number, an infinity or a not-a-number. *)
Definition float_of_str (s : string) : option float :=
  l ← remove_underscores Ascii.zero (list_ascii_of_string s);
  let l := strip l in
  match parse_decimal l with
  | Some f => Some f
  | None => parse_inf_or_nan l
  end.

(** [float(z)] for an [int]; [None] stands for [OverflowError]. *)
Definition float_of_int (z : Z) : option float :=
  match binary_normalize prec emax z 0 false with
  | S754_infinity _ => None
  | sf => Some (SF2Prim sf)
  end.

Definition float (x : pyval) : exn + float :=
  match x with
  | PFloat f => inr f
  | PInt z => match float_of_int z with Some f => inr f | None => inl OverflowError end
  | PBool b => inr (if b then 1%float else 0%float)
  | PStr s => match float_of_str s with Some f => inr f | None => inl ValueError end
  | PNone | PList _ | PDict _ => inl TypeError
  end.

End Builtins.

(** ** Core data structures (the pydantic models) *)

Record Substitution : Type := mkSubstitution {
  original_ingredient : string;
  substitute : string;
  reason : string;
}.

Record PlanningResult : Type := mkPlanningResult {
  conversion_list : list pyval;
  substitution_map : list Substitution;
}.

(** The model classes, as values handed around as [output_schema]. *)
Inductive BaseModel : Type := PlanningResult_cls | Substitution_cls.

(** [PlanningResult.mock_data()] *)
Definition mock_data : PlanningResult :=
  {| substitution_map :=
       [ {| original_ingredient := "Beef chuck"; substitute := "Firm Tofu";
            reason := "Vegetarian protein swap." |};
         {| original_ingredient := "Sour cream"; substitute := "Full-fat Coconut Milk";
            reason := "Dairy-free creamy base." |} ];
     conversion_list :=
       [ PDict {[ "amount" := PFloat 2%float; "unit" := PStr "cups";
                  "to_unit" := PStr "grams" ]} ] |}.

(** What pydantic derives from the declared fields: [model_dump] writes the
    fields into a dict, [model_validate] reads them back, and refuses a value
    that lacks a field or holds one of another type, naming the field. *)
Module Schema.

Definition str_field (d : gmap string pyval) (name : string) : exn + string :=
  match d !! name with
  | Some (PStr s) => inr s
  | _ => inl (ValidationError name)
  end.

Definition list_field (d : gmap string pyval) (name : string) : exn + list pyval :=
  match d !! name with
  | Some (PList l) => inr l
  | _ => inl (ValidationError name)
  end.

Definition Substitution_model_dump (s : Substitution) : pyval :=
  PDict {[ "original_ingredient" := PStr (original_ingredient s);
           "substitute" := PStr (substitute s);
           "reason" := PStr (reason s) ]}.

Definition Substitution_model_validate (v : pyval) : exn + Substitution :=
  match v with
  | PDict d =>
      match str_field d "original_ingredient", str_field d "substitute",
            str_field d "reason" with
      | inr o, inr s, inr r => inr (mkSubstitution o s r)
      | inl e, _, _ | _, inl e, _ | _, _, inl e => inl e
      end
  | _ => inl (ValidationError "substitution_map")
  end.

Fixpoint validate_all (l : list pyval) : exn + list Substitution :=
  match l with
  | [] => inr []
  | v :: r =>
      match Substitution_model_validate v, validate_all r with
      | inr s, inr ss => inr (s :: ss)
      | inl e, _ | _, inl e => inl e
      end
  end.

Definition PlanningResult_model_dump (p : PlanningResult) : pyval :=
  PDict {[ "conversion_list" := PList (conversion_list p);
           "substitution_map" :=
             PList (map Substitution_model_dump (substitution_map p)) ]}.

Definition PlanningResult_model_validate (v : pyval) : exn + PlanningResult :=
  match v with
  | PDict d =>
      match list_field d "conversion_list", list_field d "substitution_map" with
      | inr cl, inr sm =>
          match validate_all sm with
          | inr ss => inr (mkPlanningResult cl ss)
          | inl e => inl e
          end
      | inl e, _ | _, inl e => inl e
      end
  | _ => inl (ValidationError "PlanningResult")
  end.

End Schema.

(** ** Text, requests and responses *)

(** A formatted string ([f"..."]) is kept as its pieces: literal text,
    values interpolated with [{...}], and [json.dumps] blocks.  A piece is
    rendered by Python, not by this module. *)
Inductive piece : Type :=
  | Lit (s : string)
  | Fmt (v : pyval)
  | FmtExn (e : exn)
  | FmtModel (p : option PlanningResult)
  | JsonDumps (v : pyval) (indent : nat).

Definition fstring : Type := list piece.

(** ["\n".join(lines)] *)
Fixpoint join_lines (lines : list fstring) : fstring :=
  match lines with
  | [] => []
  | [l] => l
  | l :: r => l ++ Lit nl :: join_lines r
  end.

Record Part : Type := { part_text : fstring }.
Record Content : Type := { role : string; parts : list Part }.

Inductive config_value : Type :=
  | CfgStr (s : string)
  | CfgSchema (cls : BaseModel).

(** The keyword arguments of [generate_content]; [kwargs.get('config', {})]
    is [default ∅ (kw_config kw)]. *)
Record kwargs : Type := {
  kw_model : string;
  kw_contents : list Content;
  kw_config : option (gmap string config_value);
}.

(** The response object: [text], and [parsed] when a schema was requested. *)
Record Response : Type := MockResponse {
  text : string;
  parsed : option PlanningResult;
}.

(** ** Effects: a trace of events, and exceptions *)

(** What a run does that can be observed: a line written by [print], an
    entry into [unit_converter_tool] with its arguments, and a call of
    [client.models.generate_content] with its keyword arguments. *)
Inductive event : Type :=
  | Print (line : fstring)
  | ToolCall (amount : float) (unit : pyval)
  | GenerateContent (kw : kwargs).

(** A computation yields the events it emitted and either the exception it
    raised or its value. *)
Definition M (A : Type) : Type := list event * (exn + A).

Definition ret {A} (a : A) : M A := ([], inr a).
Definition raise {A} (e : exn) : M A := ([], inl e).
Definition lift {A} (r : exn + A) : M A := ([], r).
Definition emit (ev : event) : M unit := ([ev], inr tt).
Definition print (line : fstring) : M unit := emit (Print line).

Definition bind {A B} (k : A -> M B) (m : M A) : M B :=
  match m with
  | (t, inl e) => (t, inl e)
  | (t, inr a) => let (t', r) := k a in (t ++ t', r)
  end.

(** Sequencing is written [x ← m; k] and [m;; k]. *)
#[global] Instance M_bind : MBind M := @bind.

Definition trace {A} (m : M A) : list event := fst m.
Definition outcome {A} (m : M A) : exn + A := snd m.

(** ** Mock client *)

(** [MockModels.generate_content(self, **kwargs)] *)
Definition MockModels_generate_content (kw : kwargs) : Response :=
  if bool_decide (is_Some (default ∅ (kw_config kw) !! "response_schema")) then
    {| text := "[MOCK OUTPUT: Structured Plan Generated]";
       parsed := Some mock_data |}
  else
    {| text := "[MOCK OUTPUT: Final Recipe Text]"; parsed := None |}.

(** The module's [client] is a [genai.Client], whose [generate_content]
    answers a request or raises as the provider decides, or a [MockClient]. *)
Inductive Client : Type :=
  | GenaiClient (models_generate_content : kwargs -> exn + Response)
  | MockClient.

Definition generate_content (c : Client) (kw : kwargs) : M Response :=
  emit (GenerateContent kw);;
  match c with
  | GenaiClient models_generate_content => lift (models_generate_content kw)
  | MockClient => ret (MockModels_generate_content kw)
  end.

(** ** Authentication and client initialisation *)

Definition CONCEPTUAL_MODEL_NAME : string := "AI_Reasoning_Engine_Flash".

(** The module's globals once it is loaded. *)
Record Globals : Type := {
  client : Client;
  API_MODEL_NAME : string;
}.

Definition mock_mode : Globals :=
  {| client := MockClient; API_MODEL_NAME := "MOCK_MODEL" |}.

(** The module body from [API_MODEL_NAME = ...] to the end of the [if]:
    [environ_get] is [os.environ.get("GEMINI_API_KEY")] and [genai_Client]
    is the constructor [genai.Client(api_key=...)]. *)
Definition load_module (environ_get : option string)
    (genai_Client : string -> exn + (kwargs -> exn + Response)) : M Globals :=
  let API_KEY := environ_get in
  match API_KEY with
  | Some key =>
      if bool_decide (key = "") then
        print [Lit "⚠️ API Key not found in environment variable 'GEMINI_API_KEY'. Using Mock Mode."];;
        ret mock_mode
      else
        match genai_Client key with
        | inr c =>
            print [Lit "✅ Gemini Client initialized successfully with API Key."];;
            ret {| client := GenaiClient c; API_MODEL_NAME := "gemini-2.5-flash" |}
        | inl e =>
            if is_Exception e then
              print [Lit "❌ API KEY VALIDATION ERROR. Client failed to initialize. Using Mock Mode. Details: ";
                     FmtExn e];;
              ret mock_mode
            else raise e
        end
  | None =>
      print [Lit "⚠️ API Key not found in environment variable 'GEMINI_API_KEY'. Using Mock Mode."];;
      ret mock_mode
  end.

(** ** Tools *)

(** TOOL: A function to convert common cooking units to a standard metric. *)
Definition unit_converter_tool (amount : float) (unit : pyval) : M float :=
  emit (ToolCall amount unit);;
  print [Lit "⚙️ TOOL ACTIVATED: Converting "; Fmt (PFloat amount); Lit " ";
         Fmt unit; Lit "..."];;
  lowered ← lift (Builtins.lower_method unit);
  if bool_decide (lowered ∈ ["cups"; "cup"]) then ret (amount * 120)%float
  else ret amount.

(** ** Agent execution utility *)

(** What [run_agent] returns: [response.parsed] or [response.text]. *)
Inductive agent_output : Type :=
  | Parsed (p : option PlanningResult)
  | Text (s : string).

(** Generic function to run the model and handle structured/text output. *)
Definition run_agent (g : Globals) (agent_name : string)
    (system_prompt prompt : fstring) (output_schema : option BaseModel)
  : M agent_output :=
  let config : gmap string config_value := ∅ in
  let config :=
    match output_schema with
    | Some cls =>
        <["response_schema" := CfgSchema cls]>
          (<["response_mime_type" := CfgStr "application/json"]> config)
    | None => config
    end in
  let full_contents :=
    [ {| role := "user";
         parts := [ {| part_text :=
                         [Lit "SYSTEM ROLE ("; Lit agent_name; Lit "): "]
                         ++ system_prompt
                         ++ [Lit (nl +:+ nl +:+ "USER PROMPT:" +:+ nl)]
                         ++ prompt |} ] |} ] in
  response ← generate_content (client g)
               {| kw_model := API_MODEL_NAME g;
                  kw_contents := full_contents;
                  kw_config := Some config |};
  ret (match output_schema with
       | Some _ => Parsed (parsed response)
       | None => Text (text response)
       end).

(** ** Orchestration (the multi-agent workflow) *)

Definition planner_prompt (original_recipe target_style : string) : fstring :=
  [ Lit (nl +:+ "    ORIGINAL RECIPE: " +:+ dquote); Lit original_recipe;
    Lit (dquote +:+ nl +:+ "    TARGET TRANSFORMATION: " +:+ dquote);
    Lit target_style;
    Lit (dquote +:+ nl
         +:+ "    Analyze the recipe and generate a comprehensive Substitution Map and a list of necessary Unit Conversions."
         +:+ nl +:+ "    ") ].

Definition planner_system_prompt : fstring :=
  [ Lit "You are the expert Recipe Planner, powered by the ";
    Lit CONCEPTUAL_MODEL_NAME;
    Lit ". Your sole job is to identify substitutions to match the target style and output the result in the required JSON schema." ].

Definition stylist_prompt (original_recipe : string)
    (substitution_map_str conversion_results_str : fstring)
    (target_style : string) : fstring :=
  [ Lit (nl +:+ "    ORIGINAL RECIPE: "); Lit original_recipe;
    Lit (nl +:+ "    SUBSTITUTION MAP (CRITICAL MEMORY): ") ]
  ++ substitution_map_str
  ++ [ Lit (nl +:+ "    CONVERSION NOTES: ") ]
  ++ conversion_results_str
  ++ [ Lit (nl +:+ nl
            +:+ "    Your task is to rewrite the ORIGINAL RECIPE entirely, applying all substitutions and conversions. Rewrite the instructions to sound authentic for the '");
       Lit target_style; Lit ("' style." +:+ nl +:+ "    ") ].

Definition stylist_system_prompt (target_style : string) : fstring :=
  [ Lit "You are the expert Technical Recipe Stylist, powered by the ";
    Lit CONCEPTUAL_MODEL_NAME;
    Lit ". Your job is to take the provided context and rewrite the final, well-formatted recipe in the style of '";
    Lit target_style; Lit "' cuisine." ].

(** The line appended to [conversion_results] for one entry. *)
Definition conversion_note (amount unit : pyval) (converted_amount : float)
    (to_unit : pyval) : fstring :=
  [ Lit "Original: "; Fmt amount; Lit " "; Fmt unit; Lit ". Standardized: ";
    Fmt (PFloat converted_amount); Lit " "; Fmt to_unit; Lit "." ].

(** ['amount' in conv and 'unit' in conv and 'to_unit' in conv] *)
Definition has_all_keys (conv : pyval) : M bool :=
  has_amount ← lift (Builtins.contains "amount" conv);
  if (has_amount : bool) then
    has_unit ← lift (Builtins.contains "unit" conv);
    if (has_unit : bool) then lift (Builtins.contains "to_unit" conv) else ret false
  else ret false.

(** [converted_amount = unit_converter_tool(float(conv['amount']), conv['unit'])] *)
Definition converted_amount_of (conv : pyval) : M float :=
  amount ← lift (Builtins.getitem conv "amount");
  amount ← lift (Builtins.float amount);
  unit ← lift (Builtins.getitem conv "unit");
  unit_converter_tool amount unit.

(** The body of [for conv in conversion_list], on the list built so far. *)
Definition convert_entry (conv : pyval) (conversion_results : list fstring)
  : M (list fstring) :=
  ok ← has_all_keys conv;
  if (ok : bool) then
    converted_amount ← converted_amount_of conv;
    amount ← lift (Builtins.getitem conv "amount");
    unit ← lift (Builtins.getitem conv "unit");
    to_unit ← lift (Builtins.getitem conv "to_unit");
    ret (conversion_results
         ++ [conversion_note amount unit converted_amount to_unit])
  else ret conversion_results.

Fixpoint convert_entries (conversion_list : list pyval)
    (conversion_results : list fstring) : M (list fstring) :=
  match conversion_list with
  | [] => ret conversion_results
  | conv :: rest =>
      conversion_results ← convert_entry conv conversion_results;
      convert_entries rest conversion_results
  end.

(** Attribute access on what [run_agent] returned; only a [PlanningResult]
    has the two attributes. *)
Definition get_conversion_list (planning_result : agent_output) : M (list pyval) :=
  match planning_result with
  | Parsed (Some p) => ret (conversion_list p)
  | _ => raise AttributeError
  end.

Definition get_substitution_map (planning_result : agent_output)
  : M (list Substitution) :=
  match planning_result with
  | Parsed (Some p) => ret (substitution_map p)
  | _ => raise AttributeError
  end.

(** [print(final_recipe_draft)] *)
Definition format_output (o : agent_output) : fstring :=
  match o with
  | Text s => [Lit s]
  | Parsed p => [FmtModel p]
  end.

Definition rule : string := Builtins.str_mul "=" 70.

(** The main sequential multi-agent workflow.  It has no [return]: a call
    evaluates to [None]. *)
Definition run_recipe_adapter_workflow (g : Globals)
    (original_recipe target_style : string) : M pyval :=
  (* AGENT 1: the Planner agent (structured output) *)
  print [Lit (nl +:+ "--- 1. PLANNER AGENT: Generating Substitution Map ---")];;
  planning_result ← run_agent g "Planner_Agent" planner_system_prompt
                      (planner_prompt original_recipe target_style)
                      (Some PlanningResult_cls);
  (* 2. tool execution (the unit converter tool) *)
  print [Lit (nl +:+ "--- 2. TOOL EXECUTION: Running Unit Converter ---")];;
  let conversion_results := [] in
  (* the attribute is a list whenever it exists, so the [else []] is dead *)
  conversion_list ← get_conversion_list planning_result;
  conversion_results ← convert_entries conversion_list conversion_results;
  let conversion_results_str := join_lines conversion_results in
  (* session / memory management *)
  substitutions ← get_substitution_map planning_result;
  let substitution_map_str :=
    [JsonDumps (PList (map Schema.Substitution_model_dump substitutions)) 2] in
  (* AGENT 2: the Stylist agent (text output) *)
  print [Lit (nl +:+ "--- 3. STYLIST AGENT: Generating Final Recipe Draft ---")];;
  final_recipe_draft ← run_agent g "Stylist_Agent"
                         (stylist_system_prompt target_style)
                         (stylist_prompt original_recipe substitution_map_str
                            conversion_results_str target_style)
                         None;
  print [Lit (nl +:+ rule)];;
  print [Lit "✅ WORKFLOW COMPLETE: FINAL OUTPUT"];;
  print [Lit rule];;
  print (format_output final_recipe_draft);;
  print [Lit rule];;
  ret PNone.

(** The reference invocation. *)
Definition ORIGINAL_RECIPE : string :=
  "Classic Beef Stroganoff: Ingredients: 2 cups Beef chuck, 1 cup sour cream, 2 tablespoons butter, 1 pinch of salt, 4 cups egg noodles. Instructions: 1. Sear beef in butter. 2. Stir in sour cream and salt. 3. Simmer for 15 mins. 4. Serve over egg noodles.".
Definition TARGET_STYLE : string := "Vegetarian Southeast Asian".

(** The process: load the module, then run the workflow. *)
Definition main (environ_get : option string)
    (genai_Client : string -> exn + (kwargs -> exn + Response))
    (original_recipe target_style : string) : M pyval :=
  g ← load_module environ_get genai_Client;
  run_recipe_adapter_workflow g original_recipe target_style.

(** * Vocabulary of the statements *)

(** What a call of the tool leaves in the trace: the call and its console
    line. *)
Definition tool_trace (amount : float) (unit : string) : list event :=
  [ ToolCall amount (PStr unit);
    Print [Lit "⚙️ TOOL ACTIVATED: Converting "; Fmt (PFloat amount); Lit " ";
           Fmt (PStr unit); Lit "..."] ].


(** Whether an evaluation gave a value rather than an exception. *)
Definition accepted {A} (r : exn + A) : bool :=
  match r with inr _ => true | inl _ => false end.


(** The request [run_agent] sends. *)
Definition agent_request (g : Globals) (agent_name : string)
    (system_prompt prompt : fstring) (output_schema : option BaseModel) : kwargs :=
  {| kw_model := API_MODEL_NAME g;
     kw_contents :=
       [ {| role := "user";
            parts := [ {| part_text :=
                            [Lit "SYSTEM ROLE ("; Lit agent_name; Lit "): "]
                            ++ system_prompt
                            ++ [Lit (nl +:+ nl +:+ "USER PROMPT:" +:+ nl)]
                            ++ prompt |} ] |} ];
     kw_config :=
       Some (match output_schema with
             | Some cls =>
                 <["response_schema" := CfgSchema cls]>
                   (<["response_mime_type" := CfgStr "application/json"]> ∅)
             | None => ∅
             end) |}.

Definition planner_request (g : Globals) (original_recipe target_style : string)
  : kwargs :=
  agent_request g "Planner_Agent" planner_system_prompt
    (planner_prompt original_recipe target_style) (Some PlanningResult_cls).

Definition stylist_request (g : Globals) (original_recipe target_style : string)
    (substitutions : list Substitution) (notes : list fstring) : kwargs :=
  agent_request g "Stylist_Agent" (stylist_system_prompt target_style)
    (stylist_prompt original_recipe
       [JsonDumps (PList (map Schema.Substitution_model_dump substitutions)) 2]
       (join_lines notes) target_style)
    None.

(** What the client answers to a request. *)
Definition answer (c : Client) (kw : kwargs) : exn + Response :=
  match c with
  | GenaiClient models_generate_content => models_generate_content kw
  | MockClient => inr (MockModels_generate_content kw)
  end.

(** The events of a trace that are tool calls, and those that are model calls. *)
Definition tool_calls (t : list event) : list (float * pyval) :=
  omap (λ ev, match ev with ToolCall a u => Some (a, u) | _ => None end) t.

Definition model_calls (t : list event) : list kwargs :=
  omap (λ ev, match ev with GenerateContent kw => Some kw | _ => None end) t.

(** The console banners that open the three stages. *)
Definition banner_planner : event :=
  Print [Lit (nl +:+ "--- 1. PLANNER AGENT: Generating Substitution Map ---")].
Definition banner_tool : event :=
  Print [Lit (nl +:+ "--- 2. TOOL EXECUTION: Running Unit Converter ---")].
Definition banner_stylist : event :=
  Print [Lit (nl +:+ "--- 3. STYLIST AGENT: Generating Final Recipe Draft ---")].

(** The console lines of the end of a run that printed [final_text]. *)
Definition final_output (final_text : string) : list event :=
  [ Print [Lit (nl +:+ rule)]; Print [Lit "✅ WORKFLOW COMPLETE: FINAL OUTPUT"];
    Print [Lit rule]; Print [Lit final_text]; Print [Lit rule] ].

(** A live client whose provider answers a schema-constrained request with
    the plan [p] and any other request with the text [t]. *)
Definition provider_answering (p : PlanningResult) (t : string) : Globals :=
  {| client :=
       GenaiClient (λ kw,
         inr (if bool_decide (is_Some (default ∅ (kw_config kw) !! "response_schema"))
              then {| text := "(the plan, as JSON)"; parsed := Some p |}
              else {| text := t; parsed := None |}));
     API_MODEL_NAME := "gemini-2.5-flash" |}.

(** A live client whose provider refuses every request with [e]. *)
Definition provider_raising (e : exn) : Globals :=
  {| client := GenaiClient (λ _, inl e); API_MODEL_NAME := "gemini-2.5-flash" |}.

(** The note and the Stylist request of a run with the mock client. *)
Definition mock_note : fstring :=
  conversion_note (PFloat 2) (PStr "cups") 240 (PStr "grams").

Definition mock_stylist_request (original_recipe target_style : string) : kwargs :=
  stylist_request mock_mode original_recipe target_style
    (substitution_map mock_data) [mock_note].

(** The trace of a run with the mock client. *)
Definition mock_run_trace (original_recipe target_style : string) : list event :=
  [banner_planner;
   GenerateContent (planner_request mock_mode original_recipe target_style);
   banner_tool]
  ++ tool_trace 2 "cups"
  ++ [banner_stylist;
      GenerateContent (mock_stylist_request original_recipe target_style)]
  ++ final_output "[MOCK OUTPUT: Final Recipe Text]".

(** A computation that calls no model. *)
Definition no_model_call {A} (m : M A) : Prop := model_calls (trace m) = [].

Definition nonempty (s : string) : bool :=
  match s with EmptyString => false | String _ _ => true end.

(** The invariant the specification states for a substitution entry. *)
Definition all_fields_nonempty (s : Substitution) : bool :=
  nonempty (original_ingredient s) && nonempty (substitute s) && nonempty (reason s).

(** The console lines of a trace. *)
Definition printed (t : list event) : list fstring :=
  omap (λ ev, match ev with Print line => Some line | _ => None end) t.

(** A live client whose provider answers a schema-constrained request with
    the plan [p] and refuses any other request with [e]. *)
Definition provider_failing_stylist (p : PlanningResult) (e : exn) : Globals :=
  {| client :=
       GenaiClient (λ kw,
         if bool_decide (is_Some (default ∅ (kw_config kw) !! "response_schema"))
         then inr {| text := "(the plan, as JSON)"; parsed := Some p |}
         else inl e);
     API_MODEL_NAME := "gemini-2.5-flash" |}.

(** The console line of a module load that found no usable key. *)
Definition no_key_line : event :=
  Print [Lit "⚠️ API Key not found in environment variable 'GEMINI_API_KEY'. Using Mock Mode."].







(** * Properties *)

(** ** The effect monad *)

Section Monad.
Context {A B C : Type}.

Lemma bind_ret_l (a : A) (k : A -> M B) : (ret a ≫= k) = k a.
Proof. unfold mbind, M_bind, bind, ret. by destruct (k a). Qed.

Lemma bind_lift_inr (a : A) (k : A -> M B) : (lift (inr a) ≫= k) = k a.
Proof. apply bind_ret_l. Qed.

Lemma bind_lift_inl (e : exn) (k : A -> M B) : (lift (inl e) ≫= k) = raise e.
Proof. reflexivity. Qed.

Lemma bind_raise (e : exn) (k : A -> M B) : (raise e ≫= k) = raise e.
Proof. reflexivity. Qed.

Lemma bind_ret_r (m : M A) : (m ≫= ret) = m.
Proof.
  destruct m as [t [e|a]]; unfold mbind, M_bind, bind, ret; [done|].
  by rewrite app_nil_r.
Qed.

Lemma bind_assoc (m : M A) (k : A -> M B) (h : B -> M C) :
  ((m ≫= k) ≫= h) = (m ≫= λ a, k a ≫= h).
Proof.
  destruct m as [t [e|a]]; unfold mbind, M_bind, bind; [done|].
  destruct (k a) as [t1 [e1|b]]; [done|].
  destruct (h b) as [t2 r]. by rewrite app_assoc.
Qed.

Lemma bind_ext (m : M A) (k k' : A -> M B) :
  (forall a, k a = k' a) -> (m ≫= k) = (m ≫= k').
Proof.
  intros Hk. destruct m as [t [e|a]]; unfold mbind, M_bind, bind; [done|].
  by rewrite Hk.
Qed.

(** A computation that raises runs nothing after it. *)
Lemma bind_inl (m : M A) (k : A -> M B) t e :
  m = (t, inl e) -> (m ≫= k) = (t, inl e).
Proof. by intros ->. Qed.

Lemma bind_inr (m : M A) (k : A -> M B) t a :
  m = (t, inr a) -> (m ≫= k) = (t ++ trace (k a), outcome (k a)).
Proof. intros ->. unfold mbind, M_bind, bind. by destruct (k a). Qed.
End Monad.

(** ** The unit converter tool *)

Lemma unit_converter_tool_str (amount : float) (unit : string) :
  unit_converter_tool amount (PStr unit) =
  (tool_trace amount unit,
   inr (if bool_decide (Builtins.lower unit ∈ ["cups"; "cup"])
        then (amount * 120)%float else amount)).
Proof.
  unfold unit_converter_tool, tool_trace. cbn.
  by destruct (bool_decide _).
Qed.

(** C4. For every amount and every unit whose lower-cased form is "cups" or
    "cup", the tool returns exactly [amount * 120.0]; being a function of its
    two arguments, it is deterministic. *)
Theorem unit_converter_tool_known (amount : float) (unit : string) :
  Builtins.lower unit ∈ ["cups"; "cup"] ->
  unit_converter_tool amount (PStr unit)
  = (tool_trace amount unit, inr (amount * 120)%float).
Proof.
  intros Hin. rewrite unit_converter_tool_str.
  by rewrite bool_decide_eq_true_2.
Qed.

Lemma unit_converter_tool_known_witness :
  (Builtins.lower "Cups" ∈ ["cups"; "cup"])
  /\ unit_converter_tool 2 (PStr "Cups") = (tool_trace 2 "Cups", inr 240%float).
Proof.
  assert (H : Builtins.lower "Cups" ∈ ["cups"; "cup"])
    by (refine (bool_decide_eq_true_1 _ _); reflexivity).
  split; [exact H|].
  exact (unit_converter_tool_known 2 "Cups" H).
Defined.

(** C5. For every unit whose lower-cased form is neither "cups" nor "cup",
    the tool returns the amount it was given, whatever the amount is. *)
Theorem unit_converter_tool_unknown (amount : float) (unit : string) :
  Builtins.lower unit ∉ ["cups"; "cup"] ->
  unit_converter_tool amount (PStr unit) = (tool_trace amount unit, inr amount).
Proof.
  intros Hin. rewrite unit_converter_tool_str.
  by rewrite bool_decide_eq_false_2.
Qed.

Lemma unit_converter_tool_unknown_witness :
  (Builtins.lower "Tbsp" ∉ ["cups"; "cup"])
  /\ unit_converter_tool (-3.5) (PStr "Tbsp") = (tool_trace (-3.5) "Tbsp", inr (-3.5)%float)
  /\ unit_converter_tool 0 (PStr "Tbsp") = (tool_trace 0 "Tbsp", inr 0%float).
Proof.
  assert (H : Builtins.lower "Tbsp" ∉ ["cups"; "cup"])
    by (refine (bool_decide_eq_false_1 _ _); reflexivity).
  split; [exact H|]. split.
  - exact (unit_converter_tool_unknown (-3.5) "Tbsp" H).
  - exact (unit_converter_tool_unknown 0 "Tbsp" H).
Defined.

(** ** The conversion loop *)

Lemma has_all_keys_dict (d : gmap string pyval) :
  has_all_keys (PDict d)
  = ret (bool_decide (is_Some (d !! "amount"))
         && bool_decide (is_Some (d !! "unit"))
         && bool_decide (is_Some (d !! "to_unit"))).
Proof.
  unfold has_all_keys. cbn [Builtins.contains].
  rewrite bind_lift_inr. destruct (bool_decide (is_Some (d !! "amount"))); [|done].
  rewrite bind_lift_inr. by destruct (bool_decide (is_Some (d !! "unit"))).
Qed.

Lemma has_all_keys_present (d : gmap string pyval) a u t :
  d !! "amount" = Some a -> d !! "unit" = Some u -> d !! "to_unit" = Some t ->
  has_all_keys (PDict d) = ret true.
Proof.
  intros Ha Hu Ht. rewrite has_all_keys_dict, Ha, Hu, Ht.
  by rewrite !bool_decide_eq_true_2.
Qed.

Lemma has_all_keys_missing (d : gmap string pyval) :
  d !! "amount" = None \/ d !! "unit" = None \/ d !! "to_unit" = None ->
  has_all_keys (PDict d) = ret false.
Proof.
  intros H. rewrite has_all_keys_dict. f_equal.
  destruct H as [H | [H | H]]; rewrite H;
    rewrite (bool_decide_eq_false_2 (is_Some None)) by (by intros [? ?]).
  - done.
  - by rewrite andb_false_r.
  - by rewrite andb_false_r.
Qed.

Lemma converted_amount_of_dict (d : gmap string pyval) a u :
  d !! "amount" = Some a -> d !! "unit" = Some u ->
  converted_amount_of (PDict d)
  = (amount ← lift (Builtins.float a); unit_converter_tool amount u).
Proof.
  intros Ha Hu. unfold converted_amount_of. cbn [Builtins.getitem].
  rewrite Ha, Hu, bind_lift_inr. apply bind_ext; intros amount.
  by rewrite bind_lift_inr.
Qed.

(** An entry that holds the three keys: one conversion, one note. *)
Lemma convert_entry_present (d : gmap string pyval) a u t results :
  d !! "amount" = Some a -> d !! "unit" = Some u -> d !! "to_unit" = Some t ->
  convert_entry (PDict d) results
  = (c ← converted_amount_of (PDict d);
     ret (results ++ [conversion_note a u c t])).
Proof.
  intros Ha Hu Ht. unfold convert_entry.
  rewrite (has_all_keys_present d a u t), bind_ret_l by done.
  cbn [Builtins.getitem]. rewrite Ha, Hu, Ht. apply bind_ext; intros c.
  by rewrite !bind_lift_inr.
Qed.

Lemma convert_entries_app (l1 l2 : list pyval) results :
  convert_entries (l1 ++ l2) results
  = (r ← convert_entries l1 results; convert_entries l2 r).
Proof.
  revert results. induction l1 as [|conv l1 IH]; intros results; cbn [app convert_entries].
  - by rewrite bind_ret_l.
  - rewrite bind_assoc. apply bind_ext; intros r. apply IH.
Qed.

Lemma convert_entry_missing (d : gmap string pyval) results :
  d !! "amount" = None \/ d !! "unit" = None \/ d !! "to_unit" = None ->
  convert_entry (PDict d) results = ret results.
Proof.
  intros H. unfold convert_entry.
  by rewrite has_all_keys_missing, bind_ret_l.
Qed.

(** C6. An entry (a mapping) that lacks one of the keys amount, unit,
    to_unit is skipped: its loop iteration records no note, leaves no event
    in the trace (so the tool is not called) and raises nothing, and the
    loop over a list holding the entry runs as over the list without it. *)
Theorem missing_key_entry_skipped (d : gmap string pyval)
    (before after : list pyval) (results : list fstring) :
  d !! "amount" = None \/ d !! "unit" = None \/ d !! "to_unit" = None ->
  convert_entry (PDict d) results = ([], inr results)
  /\ convert_entries (before ++ PDict d :: after) results
     = convert_entries (before ++ after) results.
Proof.
  intros H. split; [by apply convert_entry_missing|].
  rewrite !convert_entries_app. apply bind_ext; intros r.
  cbn [convert_entries]. by rewrite convert_entry_missing, bind_ret_l.
Qed.

Lemma missing_key_entry_skipped_witness :
  let d : gmap string pyval := {[ "amount" := PFloat 1; "unit" := PStr "cup" ]} in
  let e := PDict {[ "amount" := PFloat 2; "unit" := PStr "cups";
                    "to_unit" := PStr "grams" ]} in
  (d !! "amount" = None \/ d !! "unit" = None \/ d !! "to_unit" = None)
  /\ convert_entry (PDict d) [] = ([], inr [])
  /\ convert_entries ([e] ++ PDict d :: [e]) [] = convert_entries ([e] ++ [e]) [].
Proof.
  intros d e.
  assert (H : d !! "amount" = None \/ d !! "unit" = None \/ d !! "to_unit" = None)
    by (right; right; reflexivity).
  split; [exact H|].
  exact (missing_key_entry_skipped d [e] [e] [] H).
Defined.



(** ** When the conversion stage succeeds, and when it raises *)

Lemma float_accepts_float f : Builtins.float (PFloat f) = inr f.
Proof. reflexivity. Qed.

Lemma float_accepts_bool b : accepted (Builtins.float (PBool b)) = true.
Proof. reflexivity. Qed.





(** ** The stages of a run *)

Lemma generate_content_eq (c : Client) (kw : kwargs) :
  generate_content c kw = ([GenerateContent kw], answer c kw).
Proof. by destruct c. Qed.

Lemma run_agent_eq g agent_name system_prompt prompt output_schema :
  run_agent g agent_name system_prompt prompt output_schema
  = ([GenerateContent (agent_request g agent_name system_prompt prompt output_schema)],
     match answer (client g)
             (agent_request g agent_name system_prompt prompt output_schema) with
     | inl e => inl e
     | inr response =>
         inr (match output_schema with
              | Some _ => Parsed (parsed response)
              | None => Text (text response)
              end)
     end).
Proof.
  unfold run_agent.
  change (generate_content (client g) _)
    with (generate_content (client g)
            (agent_request g agent_name system_prompt prompt output_schema)).
  rewrite generate_content_eq.
  by destruct (answer _ _).
Qed.

Section Run.
Variable g : Globals.
Variables original_recipe target_style : string.

Let run := run_recipe_adapter_workflow g original_recipe target_style.
Let planner := planner_request g original_recipe target_style.

(** PLANNING raises: the run stops there. *)
Lemma run_planning_raises e :
  answer (client g) planner = inl e ->
  run = ([banner_planner; GenerateContent planner], inl e).
Proof.
  intros H. subst run planner. unfold run_recipe_adapter_workflow.
  rewrite run_agent_eq. fold (planner_request g original_recipe target_style).
  by rewrite H.
Qed.

(** PLANNING yields no plan: reading the plan's attribute raises. *)
Lemma run_planning_no_plan response :
  answer (client g) planner = inr response -> parsed response = None ->
  run = ([banner_planner; GenerateContent planner; banner_tool], inl AttributeError).
Proof.
  intros H Hp. subst run planner. unfold run_recipe_adapter_workflow.
  rewrite run_agent_eq. fold (planner_request g original_recipe target_style).
  by rewrite H, Hp.
Qed.

(** CONVERTING raises: the run stops there. *)
Lemma run_converting_raises response p t e :
  answer (client g) planner = inr response -> parsed response = Some p ->
  convert_entries (conversion_list p) [] = (t, inl e) ->
  run = ([banner_planner; GenerateContent planner; banner_tool] ++ t, inl e).
Proof.
  intros H Hp Hc. subst run planner. unfold run_recipe_adapter_workflow.
  rewrite run_agent_eq. fold (planner_request g original_recipe target_style).
  rewrite H, Hp. cbn. by rewrite Hc.
Qed.

(** CONVERTING succeeds: STYLING runs, and DONE follows if it answers. *)
Lemma run_styling response p t notes :
  answer (client g) planner = inr response -> parsed response = Some p ->
  convert_entries (conversion_list p) [] = (t, inr notes) ->
  let stylist :=
    stylist_request g original_recipe target_style (substitution_map p) notes in
  run = match answer (client g) stylist with
        | inl e =>
            ([banner_planner; GenerateContent planner; banner_tool] ++ t
             ++ [banner_stylist; GenerateContent stylist], inl e)
        | inr final =>
            ([banner_planner; GenerateContent planner; banner_tool] ++ t
             ++ [banner_stylist; GenerateContent stylist]
             ++ final_output (text final), inr PNone)
        end.
Proof.
  intros H Hp Hc stylist. subst run planner stylist.
  unfold run_recipe_adapter_workflow.
  rewrite run_agent_eq. fold (planner_request g original_recipe target_style).
  rewrite H, Hp.
  cbn -[run_agent convert_entries stylist_prompt stylist_system_prompt rule].
  rewrite Hc.
  cbn -[run_agent stylist_prompt stylist_system_prompt rule].
  rewrite run_agent_eq.
  change (agent_request g "Stylist_Agent" _ _ None)
    with (stylist_request g original_recipe target_style (substitution_map p) notes).
  by destruct (answer (client g) (stylist_request _ _ _ _ _)).
Qed.
End Run.

(** ** A run with the mock client *)

Lemma mock_conversions :
  convert_entries (conversion_list mock_data) [] = (tool_trace 2 "cups", inr [mock_note]).
Proof. reflexivity. Qed.

Lemma mock_run (original_recipe target_style : string) :
  run_recipe_adapter_workflow mock_mode original_recipe target_style
  = (mock_run_trace original_recipe target_style, inr PNone).
Proof.
  by rewrite (run_styling mock_mode original_recipe target_style
                (MockModels_generate_content
                   (planner_request mock_mode original_recipe target_style))
                mock_data (tool_trace 2 "cups") [mock_note]).
Qed.

(** C1, as the code has it.  With the mock client, for every recipe and
    style, the run goes through the three stages and completes: it prints as
    its final text the Stylist call's answer, the non-empty placeholder
    "[MOCK OUTPUT: Final Recipe Text]" (not the Planner's structured plan),
    and the call itself evaluates to [None]. *)
Theorem mock_run_reaches_done (original_recipe target_style : string) :
  run_recipe_adapter_workflow mock_mode original_recipe target_style
  = ([banner_planner;
      GenerateContent (planner_request mock_mode original_recipe target_style);
      banner_tool]
     ++ tool_trace 2 "cups"
     ++ [banner_stylist;
         GenerateContent (mock_stylist_request original_recipe target_style)]
     ++ final_output "[MOCK OUTPUT: Final Recipe Text]",
     inr PNone)
  /\ answer MockClient (mock_stylist_request original_recipe target_style)
     = inr {| text := "[MOCK OUTPUT: Final Recipe Text]"; parsed := None |}
  /\ nonempty "[MOCK OUTPUT: Final Recipe Text]" = true.
Proof. split; [apply mock_run|by split]. Qed.

(** C1, as stated, fails: the workflow has no [return] statement, so a call
    evaluates to [None], not to the final text, which it only prints. *)
Lemma mock_run_returns_none :
  outcome (run_recipe_adapter_workflow mock_mode ORIGINAL_RECIPE TARGET_STYLE)
  = inr PNone
  /\ last (trace (run_recipe_adapter_workflow mock_mode ORIGINAL_RECIPE TARGET_STYLE))
     = Some (Print [Lit rule]).
Proof. split; reflexivity. Qed.

(** ** A run whose PLANNING stage fails *)

(** C9. If the Planner's model call raises (the provider failed, or its
    answer did not validate against the schema), the run ends with that
    exception, the tool was never called and the only model call made was
    the Planner's: no Stylist call. *)
Theorem planning_failure_aborts (g : Globals) (original_recipe target_style : string)
    (e : exn) :
  answer (client g) (planner_request g original_recipe target_style) = inl e ->
  outcome (run_recipe_adapter_workflow g original_recipe target_style) = inl e
  /\ tool_calls (trace (run_recipe_adapter_workflow g original_recipe target_style)) = []
  /\ model_calls (trace (run_recipe_adapter_workflow g original_recipe target_style))
     = [planner_request g original_recipe target_style].
Proof.
  intros H. by rewrite (run_planning_raises g original_recipe target_style e H).
Qed.

Lemma planning_failure_aborts_witness :
  let g := provider_raising (ValidationError "substitution_map") in
  answer (client g) (planner_request g ORIGINAL_RECIPE TARGET_STYLE)
  = inl (ValidationError "substitution_map")
  /\ outcome (run_recipe_adapter_workflow g ORIGINAL_RECIPE TARGET_STYLE)
     = inl (ValidationError "substitution_map")
  /\ tool_calls (trace (run_recipe_adapter_workflow g ORIGINAL_RECIPE TARGET_STYLE)) = []
  /\ model_calls (trace (run_recipe_adapter_workflow g ORIGINAL_RECIPE TARGET_STYLE))
     = [planner_request g ORIGINAL_RECIPE TARGET_STYLE].
Proof.
  intros g. split; [reflexivity|].
  exact (planning_failure_aborts g ORIGINAL_RECIPE TARGET_STYLE
           (ValidationError "substitution_map") eq_refl).
Defined.

(** The same holds when the provider answers without a parsed plan: the run
    ends with [AttributeError] before any tool or Stylist call. *)
Lemma planning_without_plan_aborts (g : Globals) (original_recipe target_style : string)
    (response : Response) :
  answer (client g) (planner_request g original_recipe target_style) = inr response ->
  parsed response = None ->
  outcome (run_recipe_adapter_workflow g original_recipe target_style)
  = inl AttributeError
  /\ tool_calls (trace (run_recipe_adapter_workflow g original_recipe target_style)) = []
  /\ model_calls (trace (run_recipe_adapter_workflow g original_recipe target_style))
     = [planner_request g original_recipe target_style].
Proof.
  intros H Hp.
  by rewrite (run_planning_no_plan g original_recipe target_style response H Hp).
Qed.

(** A whole run that aborts in CONVERTING: the Planner answered with an
    amount that is no number, and the Stylist is never called. *)
Lemma run_aborts_in_converting :
  let p := {| conversion_list :=
                [ PDict {[ "amount" := PStr "a pinch"; "unit" := PStr "cups";
                           "to_unit" := PStr "grams" ]} ];
              substitution_map := [] |} in
  let g := provider_answering p "(the final recipe)" in
  run_recipe_adapter_workflow g ORIGINAL_RECIPE TARGET_STYLE
  = ([banner_planner;
      GenerateContent (planner_request g ORIGINAL_RECIPE TARGET_STYLE);
      banner_tool],
     inl ValueError).
Proof. reflexivity. Qed.

(** ** The schema *)

Lemma Substitution_round_trip (s : Substitution) :
  Schema.Substitution_model_validate (Schema.Substitution_model_dump s) = inr s.
Proof. by destruct s. Qed.

Lemma validate_all_round_trip (l : list Substitution) :
  Schema.validate_all (map Schema.Substitution_model_dump l) = inr l.
Proof.
  induction l as [|s l IH]; [done|].
  cbn [map Schema.validate_all]. by rewrite Substitution_round_trip, IH.
Qed.

(** Every plan validates against the schema once dumped, and is read back
    unchanged. *)
Lemma PlanningResult_round_trip (p : PlanningResult) :
  Schema.PlanningResult_model_validate (Schema.PlanningResult_model_dump p) = inr p.
Proof.
  destruct p as [cl sm].
  unfold Schema.PlanningResult_model_validate, Schema.PlanningResult_model_dump.
  cbn [conversion_list substitution_map].
  replace (Schema.list_field _ "conversion_list") with (inr (B:=list pyval) (A:=exn) cl)
    by reflexivity.
  replace (Schema.list_field _ "substitution_map")
    with (inr (A:=exn) (map Schema.Substitution_model_dump sm)) by reflexivity.
  by rewrite validate_all_round_trip.
Qed.

(** C7. Asked for schema-constrained output (a request whose config holds
    [response_schema]), the mock client answers with the mock plan, and that
    plan validates against the schema: validating its dump gives it back. *)
Theorem mock_plan_round_trips (kw : kwargs) :
  is_Some (default ∅ (kw_config kw) !! "response_schema") ->
  generate_content MockClient kw
  = ([GenerateContent kw],
     inr {| text := "[MOCK OUTPUT: Structured Plan Generated]";
            parsed := Some mock_data |})
  /\ Schema.PlanningResult_model_validate (Schema.PlanningResult_model_dump mock_data)
     = inr mock_data.
Proof.
  intros H. split; [|apply PlanningResult_round_trip].
  rewrite generate_content_eq. cbn [answer]. unfold MockModels_generate_content.
  by rewrite bool_decide_eq_true_2.
Qed.

Lemma mock_plan_round_trips_witness :
  let kw := planner_request mock_mode ORIGINAL_RECIPE TARGET_STYLE in
  is_Some (default ∅ (kw_config kw) !! "response_schema")
  /\ generate_content MockClient kw
     = ([GenerateContent kw],
        inr {| text := "[MOCK OUTPUT: Structured Plan Generated]";
               parsed := Some mock_data |})
  /\ Schema.PlanningResult_model_validate (Schema.PlanningResult_model_dump mock_data)
     = inr mock_data.
Proof.
  intros kw.
  assert (H : is_Some (default ∅ (kw_config kw) !! "response_schema"))
    by (exists (CfgSchema PlanningResult_cls); reflexivity).
  split; [exact H|].
  exact (mock_plan_round_trips kw H).
Defined.

(** ** The conversion stage calls no model *)

Lemma no_model_call_bind {A B} (m : M A) (k : A -> M B) :
  no_model_call m -> (forall a, no_model_call (k a)) -> no_model_call (m ≫= k).
Proof.
  unfold no_model_call. intros Hm Hk. destruct m as [t [e|a]]; [done|].
  specialize (Hk a). unfold mbind, M_bind, bind. destruct (k a) as [t' r].
  cbn [trace fst] in *. unfold model_calls in *. by rewrite omap_app, Hm, Hk.
Qed.

Lemma no_model_call_lift {A} (r : exn + A) : no_model_call (lift r).
Proof. done. Qed.

Lemma no_model_call_ret {A} (a : A) : no_model_call (ret a).
Proof. done. Qed.

Lemma no_model_call_tool amount unit : no_model_call (unit_converter_tool amount unit).
Proof.
  unfold unit_converter_tool.
  repeat (apply no_model_call_bind; [done|intros ?]).
  by destruct (bool_decide _).
Qed.

Create HintDb quiet.
#[local] Hint Resolve no_model_call_lift no_model_call_ret no_model_call_tool : quiet.

Lemma no_model_call_entry conv results : no_model_call (convert_entry conv results).
Proof.
  unfold convert_entry, has_all_keys, converted_amount_of.
  repeat first
    [ solve [auto with quiet]
    | match goal with |- no_model_call (if ?b then _ else _) => destruct b end
    | apply no_model_call_bind; [|intros ?] ].
Qed.

Lemma no_model_call_entries l results : no_model_call (convert_entries l results).
Proof.
  revert results. induction l as [|conv l IH]; intros results; [done|].
  cbn [convert_entries]. apply no_model_call_bind; [apply no_model_call_entry|done].
Qed.

(** ** Substitution entries *)

(** C3, as the code has it.  In a run whose Planner call answered with the
    plan [p] and whose conversions raised nothing: with the mock client,
    every substitution entry of [p] has its three fields non-empty; with any
    client, the entries are only read, the Stylist's request carrying the
    dump of exactly the entries of [p], which reads back as those entries. *)
Theorem substitution_entries_kept (g : Globals) (original_recipe target_style : string)
    (response : Response) (p : PlanningResult) (t : list event) (notes : list fstring) :
  answer (client g) (planner_request g original_recipe target_style) = inr response ->
  parsed response = Some p ->
  convert_entries (conversion_list p) [] = (t, inr notes) ->
  (client g = MockClient -> forallb all_fields_nonempty (substitution_map p) = true)
  /\ model_calls (trace (run_recipe_adapter_workflow g original_recipe target_style))
     = [ planner_request g original_recipe target_style;
         stylist_request g original_recipe target_style (substitution_map p) notes ]
  /\ Schema.validate_all (map Schema.Substitution_model_dump (substitution_map p))
     = inr (substitution_map p).
Proof.
  intros H Hp Hc. split; [|split; [|apply validate_all_round_trip]].
  - intros Hm. rewrite Hm in H. cbn [answer] in H.
    injection H as <-. unfold MockModels_generate_content in Hp.
    destruct (bool_decide _); [|done]. by injection Hp as <-.
  - pose proof (no_model_call_entries (conversion_list p) []) as Hq.
    unfold no_model_call in Hq. rewrite Hc in Hq. cbn [trace fst] in Hq.
    rewrite (run_styling g original_recipe target_style response p t notes H Hp Hc).
    unfold model_calls in *.
    destruct (answer (client g) (stylist_request _ _ _ _ _)) as [e|final];
      cbn [trace fst]; rewrite !omap_app, Hq; reflexivity.
Qed.

Lemma substitution_entries_kept_witness :
  (client mock_mode = MockClient ->
   forallb all_fields_nonempty (substitution_map mock_data) = true)
  /\ model_calls (trace (run_recipe_adapter_workflow mock_mode ORIGINAL_RECIPE TARGET_STYLE))
     = [ planner_request mock_mode ORIGINAL_RECIPE TARGET_STYLE;
         stylist_request mock_mode ORIGINAL_RECIPE TARGET_STYLE
           (substitution_map mock_data) [mock_note] ]
  /\ Schema.validate_all (map Schema.Substitution_model_dump (substitution_map mock_data))
     = inr (substitution_map mock_data).
Proof.
  exact (substitution_entries_kept mock_mode ORIGINAL_RECIPE TARGET_STYLE
           {| text := "[MOCK OUTPUT: Structured Plan Generated]";
              parsed := Some mock_data |}
           mock_data (tool_trace 2 "cups") [mock_note] eq_refl eq_refl eq_refl).
Defined.

(** C3, as stated, fails: the schema asks of the three fields only that they
    are strings.  A plan whose entry has empty fields validates, and a run
    that receives it from the provider completes. *)
Lemma empty_substitution_accepted :
  let empty := {| original_ingredient := ""; substitute := ""; reason := "" |} in
  let p := {| conversion_list := []; substitution_map := [empty] |} in
  Schema.PlanningResult_model_validate
    (PDict {[ "conversion_list" := PList [];
              "substitution_map" :=
                PList [ PDict {[ "original_ingredient" := PStr "";
                                 "substitute" := PStr ""; "reason" := PStr "" ]} ] ]})
  = inr p
  /\ all_fields_nonempty empty = false
  /\ outcome (run_recipe_adapter_workflow (provider_answering p "(the final recipe)")
                ORIGINAL_RECIPE TARGET_STYLE)
     = inr PNone.
Proof. repeat split; reflexivity. Qed.

(** ** Client initialisation *)

(** No key in the environment, or an empty one: mock mode. *)
Lemma load_module_without_key genai_Client :
  outcome (load_module None genai_Client) = inr mock_mode
  /\ outcome (load_module (Some "") genai_Client) = inr mock_mode.
Proof. by split. Qed.

(** C8. When a key is present and the client constructor raises an error,
    the error is caught: loading the module raises nothing and selects the
    mock client, and a run that follows completes. *)
Theorem init_error_falls_back_to_mock (key : string)
    (genai_Client : string -> exn + (kwargs -> exn + Response)) (e : exn)
    (original_recipe target_style : string) :
  key <> "" -> genai_Client key = inl e -> is_Exception e = true ->
  load_module (Some key) genai_Client
  = ([Print [Lit "❌ API KEY VALIDATION ERROR. Client failed to initialize. Using Mock Mode. Details: ";
             FmtExn e]],
     inr mock_mode)
  /\ outcome (main (Some key) genai_Client original_recipe target_style) = inr PNone
  /\ trace (main (Some key) genai_Client original_recipe target_style)
     = Print [Lit "❌ API KEY VALIDATION ERROR. Client failed to initialize. Using Mock Mode. Details: ";
              FmtExn e]
       :: trace (run_recipe_adapter_workflow mock_mode original_recipe target_style).
Proof.
  intros Hk He Hex.
  assert (Hl : load_module (Some key) genai_Client
               = ([Print [Lit "❌ API KEY VALIDATION ERROR. Client failed to initialize. Using Mock Mode. Details: ";
                          FmtExn e]], inr mock_mode)).
  { unfold load_module. rewrite bool_decide_eq_false_2, He, Hex by done. reflexivity. }
  split; [exact Hl|].
  unfold main. rewrite (bind_inr _ _ _ _ Hl).
  by rewrite mock_run.
Qed.

Lemma init_error_falls_back_to_mock_witness :
  let genai_Client : string -> exn + (kwargs -> exn + Response) :=
    λ _, inl (ProviderError "API key not valid") in
  "rejected-key" <> ""
  /\ genai_Client "rejected-key" = inl (ProviderError "API key not valid")
  /\ is_Exception (ProviderError "API key not valid") = true
  /\ outcome (load_module (Some "rejected-key") genai_Client) = inr mock_mode
  /\ outcome (main (Some "rejected-key") genai_Client ORIGINAL_RECIPE TARGET_STYLE)
     = inr PNone.
Proof.
  intros genai_Client.
  assert (Hk : "rejected-key" <> "") by discriminate.
  destruct (init_error_falls_back_to_mock "rejected-key" genai_Client
              (ProviderError "API key not valid") ORIGINAL_RECIPE TARGET_STYLE
              Hk eq_refl eq_refl) as (Hl & Ho & _).
  split; [exact Hk|]. split; [reflexivity|]. split; [reflexivity|].
  split; [by rewrite Hl | exact Ho].
Defined.

(** An exception that is no [Exception] is not caught: loading the module
    fails with it. *)
Lemma load_module_interrupted :
  load_module (Some "key") (λ _, inl KeyboardInterrupt) = ([], inl KeyboardInterrupt).
Proof. reflexivity. Qed.

(** The identity of C5 is equality of values: given not-a-number the tool
    returns not-a-number, which IEEE comparison tells apart from itself. *)
Remark unit_converter_tool_nan :
  outcome (unit_converter_tool nan (PStr "tbsp")) = inr nan
  /\ PrimFloat.eqb nan nan = false.
Proof. by split. Qed.

(** * Further properties *)

(** ** More on the effect monad *)

Lemma bind_inr_inv {A B} (m : M A) (k : A -> M B) t b :
  (m ≫= k) = (t, inr b) ->
  exists t1 a t2, m = (t1, inr a) /\ k a = (t2, inr b) /\ t = t1 ++ t2.
Proof.
  destruct m as [t1 [e|a]]; unfold mbind, M_bind, bind; [discriminate|].
  destruct (k a) as [t2 r] eqn:Hk. intros [= <- ->]. by exists t1, a, t2.
Qed.

Lemma tool_calls_app (t1 t2 : list event) :
  tool_calls (t1 ++ t2) = tool_calls t1 ++ tool_calls t2.
Proof. apply omap_app. Qed.

(** ** More on the unit converter tool *)

Lemma lower_char_idempotent (c : ascii) :
  Builtins.lower_char (Builtins.lower_char c) = Builtins.lower_char c.
Proof. destruct c as [[] [] [] [] [] [] [] []]; reflexivity. Qed.

Lemma lower_idempotent (s : string) : Builtins.lower (Builtins.lower s) = Builtins.lower s.
Proof.
  induction s as [|c s IH]; [done|].
  cbn [Builtins.lower]. by rewrite lower_char_idempotent, IH.
Qed.

(** The tool is case-insensitive in its unit: for every amount and every
    [str] unit it returns what it returns for the lower-cased unit. *)
Theorem unit_converter_tool_case_insensitive (amount : float) (unit : string) :
  outcome (unit_converter_tool amount (PStr unit))
  = outcome (unit_converter_tool amount (PStr (Builtins.lower unit))).
Proof. by rewrite !unit_converter_tool_str, lower_idempotent. Qed.


(** ** More on the conversion loop *)

Lemma convert_entry_str (s : string) results :
  convert_entry (PStr s) results
  = if Builtins.is_substring "amount" s && Builtins.is_substring "unit" s
       && Builtins.is_substring "to_unit" s
    then ([], inl TypeError) else ([], inr results).
Proof.
  unfold convert_entry, has_all_keys. cbn [Builtins.contains].
  rewrite bind_lift_inr.
  destruct (Builtins.is_substring "amount" s); [|done].
  rewrite bind_lift_inr.
  destruct (Builtins.is_substring "unit" s); [|done].
  by destruct (Builtins.is_substring "to_unit" s).
Qed.

Lemma convert_entry_list (l : list pyval) results :
  convert_entry (PList l) results
  = if existsb (Builtins.str_eq "amount") l && existsb (Builtins.str_eq "unit") l
       && existsb (Builtins.str_eq "to_unit") l
    then ([], inl TypeError) else ([], inr results).
Proof.
  unfold convert_entry, has_all_keys. cbn [Builtins.contains].
  rewrite bind_lift_inr.
  destruct (existsb (Builtins.str_eq "amount") l); [|done].
  rewrite bind_lift_inr.
  destruct (existsb (Builtins.str_eq "unit") l); [|done].
  by destruct (existsb (Builtins.str_eq "to_unit") l).
Qed.

(** An entry that is no mapping.  A number, a boolean or [None] makes the
    key test raise [TypeError]; a [str] or a list is skipped unless it
    contains the three keys (as substrings, as elements), and then the
    subscription raises [TypeError].  No such entry is ever converted. *)
Theorem non_mapping_entry (conv : pyval) (results : list fstring) :
  match conv with
  | PDict _ => True
  | PStr s =>
      convert_entry conv results
      = if Builtins.is_substring "amount" s && Builtins.is_substring "unit" s
           && Builtins.is_substring "to_unit" s
        then ([], inl TypeError) else ([], inr results)
  | PList l =>
      convert_entry conv results
      = if existsb (Builtins.str_eq "amount") l && existsb (Builtins.str_eq "unit") l
           && existsb (Builtins.str_eq "to_unit") l
        then ([], inl TypeError) else ([], inr results)
  | PNone | PBool _ | PInt _ | PFloat _ =>
      convert_entry conv results = ([], inl TypeError)
  end.
Proof.
  destruct conv as [| | | |s|l|d]; try done.
  - apply convert_entry_str.
  - apply convert_entry_list.
Qed.




(** The loop stops at the first entry that raises: the entries before it
    have been processed, the exception is the run's, and no entry after it
    is looked at, whatever it holds. *)
Theorem convert_entries_fail_fast (before after : list pyval) (conv : pyval)
    (results r1 : list fstring) (t1 t2 : list event) (e : exn) :
  convert_entries before results = (t1, inr r1) ->
  convert_entry conv r1 = (t2, inl e) ->
  convert_entries (before ++ conv :: after) results = (t1 ++ t2, inl e).
Proof.
  intros H1 H2. rewrite convert_entries_app, (bind_inr _ _ _ _ H1).
  cbn [convert_entries]. by rewrite (bind_inl _ _ _ _ H2).
Qed.

Lemma convert_entries_fail_fast_witness :
  let good := PDict {[ "amount" := PFloat 2; "unit" := PStr "cups";
                       "to_unit" := PStr "grams" ]} in
  let bad := PDict {[ "amount" := PStr "a pinch"; "unit" := PStr "cups";
                      "to_unit" := PStr "grams" ]} in
  convert_entries [good] [] = (tool_trace 2 "cups", inr [mock_note])
  /\ convert_entry bad [mock_note] = ([], inl ValueError)
  /\ convert_entries ([good] ++ bad :: [good; PInt 5]) []
     = (tool_trace 2 "cups" ++ [], inl ValueError).
Proof.
  intros good bad.
  assert (H1 : convert_entries [good] [] = (tool_trace 2 "cups", inr [mock_note]))
    by reflexivity.
  assert (H2 : convert_entry bad [mock_note] = ([], inl ValueError)) by reflexivity.
  split; [exact H1|]. split; [exact H2|].
  exact (convert_entries_fail_fast [good] [good; PInt 5] bad [] [mock_note]
           (tool_trace 2 "cups") [] ValueError H1 H2).
Defined.

Lemma convert_entry_grows (conv : pyval) (results notes : list fstring) t :
  convert_entry conv results = (t, inr notes) ->
  exists added, notes = results ++ added
    /\ length added = length (tool_calls t) /\ length added <= 1.
Proof.
  assert (Hskip : forall t' n',
            ((t', inr n') : M (list fstring)) = ([], inr results) ->
            exists added, n' = results ++ added
              /\ length added = length (tool_calls t') /\ length added <= 1).
  { intros t' n' [= -> ->]. exists []. rewrite app_nil_r. cbn. auto. }
  intros H. destruct conv as [| | | |s|l|d]; try discriminate.
  - rewrite convert_entry_str in H. destruct (_ && _); [discriminate|].
    symmetry in H. by apply Hskip.
  - rewrite convert_entry_list in H. destruct (_ && _); [discriminate|].
    symmetry in H. by apply Hskip.
  - destruct (d !! "amount") as [a|] eqn:Ha;
      [|rewrite convert_entry_missing in H by auto; symmetry in H; by apply Hskip].
    destruct (d !! "unit") as [u|] eqn:Hu;
      [|rewrite convert_entry_missing in H by auto; symmetry in H; by apply Hskip].
    destruct (d !! "to_unit") as [tu|] eqn:Ht;
      [|rewrite convert_entry_missing in H by auto; symmetry in H; by apply Hskip].
    rewrite (convert_entry_present d a u tu), (converted_amount_of_dict d a u) in H by done.
    destruct (Builtins.float a) as [e|f]; [discriminate|].
    rewrite bind_lift_inr in H.
    destruct u as [| | | |s| |]; try discriminate.
    rewrite unit_converter_tool_str in H. cbn in H. injection H as <- <-.
    eexists. split; [reflexivity|]. cbn. auto.
Qed.

(** The list of notes only grows: when the loop raises nothing, the notes it
    started with are a prefix of its result, it added one note per tool call
    it made, and at most one per entry. *)
Theorem convert_entries_grow (conversion_list : list pyval)
    (results notes : list fstring) (t : list event) :
  convert_entries conversion_list results = (t, inr notes) ->
  exists added, notes = results ++ added
    /\ length added = length (tool_calls t)
    /\ length added <= length conversion_list.
Proof.
  revert results t. induction conversion_list as [|conv l IH]; intros results t H.
  - injection H as <- <-. exists []. rewrite app_nil_r. cbn. auto.
  - cbn [convert_entries] in H.
    apply bind_inr_inv in H as (t1 & r1 & t2 & H1 & H2 & ->).
    apply convert_entry_grows in H1 as (a1 & -> & Hl1 & Hb1).
    apply IH in H2 as (a2 & -> & Hl2 & Hb2).
    exists (a1 ++ a2). rewrite tool_calls_app, !length_app, app_assoc. cbn [length].
    repeat split; lia.
Qed.

Lemma convert_entries_grow_witness :
  let l := [ PDict {[ "amount" := PFloat 2; "unit" := PStr "cups";
                      "to_unit" := PStr "grams" ]};
             PStr "a note"; PDict ∅ ] in
  convert_entries l [mock_note] = (tool_trace 2 "cups", inr [mock_note; mock_note])
  /\ exists added, [mock_note; mock_note] = [mock_note] ++ added
       /\ length added = length (tool_calls (tool_trace 2 "cups"))
       /\ length added <= length l.
Proof.
  intros l.
  assert (H : convert_entries l [mock_note]
              = (tool_trace 2 "cups", inr [mock_note; mock_note])) by reflexivity.
  split; [exact H|].
  exact (convert_entries_grow l [mock_note] [mock_note; mock_note]
           (tool_trace 2 "cups") H).
Defined.

(** The conversion stage never calls the model: whatever the entries are and
    whether or not an entry raises, its trace holds no model call. *)
Theorem conversion_stage_calls_no_model (conversion_list : list pyval)
    (results : list fstring) :
  model_calls (trace (convert_entries conversion_list results)) = [].
Proof. apply no_model_call_entries. Qed.

(** ** The stages of a run, for every client *)

(** The case analysis of a run: on the Planner's answer, on the plan it
    holds, on the conversion stage and on the Stylist's answer. *)
Ltac run_cases g original_recipe target_style :=
  let e := fresh "e" in
  let response := fresh "response" in
  let p := fresh "p" in
  let t := fresh "t" in
  let notes := fresh "notes" in
  let final := fresh "final" in
  let Hplan := fresh "Hplan" in
  let Hparsed := fresh "Hparsed" in
  let Hconv := fresh "Hconv" in
  let Hstyle := fresh "Hstyle" in
  destruct (answer (client g) (planner_request g original_recipe target_style))
    as [e|response] eqn:Hplan;
  [ rewrite (run_planning_raises g original_recipe target_style e Hplan)
  | destruct (parsed response) as [p|] eqn:Hparsed;
    [ destruct (convert_entries (conversion_list p) []) as [t [e|notes]] eqn:Hconv;
      [ rewrite (run_converting_raises g original_recipe target_style
                   response p t e Hplan Hparsed Hconv)
      | rewrite (run_styling g original_recipe target_style
                   response p t notes Hplan Hparsed Hconv);
        destruct (answer (client g)
                   (stylist_request g original_recipe target_style
                      (substitution_map p) notes)) as [e|final] eqn:Hstyle ]
    | rewrite (run_planning_no_plan g original_recipe target_style
                 response Hplan Hparsed) ] ].

(** Every run has one of five shapes, decided in this order by the Planner's
    answer, the plan in it, the conversion stage and the Stylist's answer.  A
    run that raises stops at once: nothing of a later stage is in its trace,
    and the final output is printed only by a run in which nothing raised. *)
Theorem run_stages (g : Globals) (original_recipe target_style : string) :
  let planner := planner_request g original_recipe target_style in
  run_recipe_adapter_workflow g original_recipe target_style
  = match answer (client g) planner with
    | inl e => ([banner_planner; GenerateContent planner], inl e)
    | inr response =>
        match parsed response with
        | None =>
            ([banner_planner; GenerateContent planner; banner_tool],
             inl AttributeError)
        | Some p =>
            match convert_entries (conversion_list p) [] with
            | (t, inl e) =>
                ([banner_planner; GenerateContent planner; banner_tool] ++ t, inl e)
            | (t, inr notes) =>
                let stylist :=
                  stylist_request g original_recipe target_style
                    (substitution_map p) notes in
                match answer (client g) stylist with
                | inl e =>
                    ([banner_planner; GenerateContent planner; banner_tool] ++ t
                     ++ [banner_stylist; GenerateContent stylist], inl e)
                | inr final =>
                    ([banner_planner; GenerateContent planner; banner_tool] ++ t
                     ++ [banner_stylist; GenerateContent stylist]
                     ++ final_output (text final), inr PNone)
                end
            end
        end
    end.
Proof. cbv zeta. by run_cases g original_recipe target_style. Qed.

(** A run that completes returns [None], and it completes only after all
    three stages succeeded: the Planner answered with a plan, no conversion
    raised, the Stylist answered, and the text printed between the rules at
    the end of the trace is the Stylist's answer. *)
Theorem completed_run (g : Globals) (original_recipe target_style : string)
    (v : pyval) :
  outcome (run_recipe_adapter_workflow g original_recipe target_style) = inr v ->
  v = PNone
  /\ exists response p t notes final,
       answer (client g) (planner_request g original_recipe target_style)
       = inr response
       /\ parsed response = Some p
       /\ convert_entries (conversion_list p) [] = (t, inr notes)
       /\ answer (client g)
            (stylist_request g original_recipe target_style (substitution_map p) notes)
          = inr final
       /\ printed (trace (run_recipe_adapter_workflow g original_recipe target_style))
          = printed ([banner_planner; banner_tool] ++ t ++ [banner_stylist])
            ++ [ [Lit (nl +:+ rule)]; [Lit "✅ WORKFLOW COMPLETE: FINAL OUTPUT"];
                 [Lit rule]; [Lit (text final)]; [Lit rule] ].
Proof.
  run_cases g original_recipe target_style; cbn [outcome snd]; try discriminate.
  intros [= <-]. split; [done|].
  exists response, p, t, notes, final. repeat split; try done.
  cbn [trace fst]. unfold printed. rewrite !omap_app. cbn [omap app].
  rewrite <- !app_assoc. reflexivity.
Qed.

Lemma completed_run_witness :
  outcome (run_recipe_adapter_workflow
             (provider_answering mock_data "(the final recipe)")
             ORIGINAL_RECIPE TARGET_STYLE) = inr PNone
  /\ PNone = PNone
  /\ exists response p t notes final,
       answer (client (provider_answering mock_data "(the final recipe)"))
         (planner_request (provider_answering mock_data "(the final recipe)")
            ORIGINAL_RECIPE TARGET_STYLE)
       = inr response
       /\ parsed response = Some p
       /\ convert_entries (conversion_list p) [] = (t, inr notes)
       /\ answer (client (provider_answering mock_data "(the final recipe)"))
            (stylist_request (provider_answering mock_data "(the final recipe)")
               ORIGINAL_RECIPE TARGET_STYLE (substitution_map p) notes)
          = inr final
       /\ printed (trace (run_recipe_adapter_workflow
                            (provider_answering mock_data "(the final recipe)")
                            ORIGINAL_RECIPE TARGET_STYLE))
          = printed ([banner_planner; banner_tool] ++ t ++ [banner_stylist])
            ++ [ [Lit (nl +:+ rule)]; [Lit "✅ WORKFLOW COMPLETE: FINAL OUTPUT"];
                 [Lit rule]; [Lit (text final)]; [Lit rule] ].
Proof.
  assert (H : outcome (run_recipe_adapter_workflow
                         (provider_answering mock_data "(the final recipe)")
                         ORIGINAL_RECIPE TARGET_STYLE) = inr PNone) by reflexivity.
  split; [exact H|].
  exact (completed_run (provider_answering mock_data "(the final recipe)")
           ORIGINAL_RECIPE TARGET_STYLE PNone H).
Defined.

(** If a conversion raises, the run ends with that exception before the
    Stylist is called: the only model call of the run is the Planner's, and
    the tool calls are those made up to the entry that raised. *)
Theorem converting_failure_skips_stylist (g : Globals)
    (original_recipe target_style : string) (response : Response)
    (p : PlanningResult) (t : list event) (e : exn) :
  answer (client g) (planner_request g original_recipe target_style) = inr response ->
  parsed response = Some p ->
  convert_entries (conversion_list p) [] = (t, inl e) ->
  outcome (run_recipe_adapter_workflow g original_recipe target_style) = inl e
  /\ model_calls (trace (run_recipe_adapter_workflow g original_recipe target_style))
     = [planner_request g original_recipe target_style]
  /\ tool_calls (trace (run_recipe_adapter_workflow g original_recipe target_style))
     = tool_calls t.
Proof.
  intros H Hp Hc.
  rewrite (run_converting_raises g original_recipe target_style response p t e H Hp Hc).
  pose proof (no_model_call_entries (conversion_list p) []) as Hq.
  unfold no_model_call in Hq. rewrite Hc in Hq. cbn [trace fst] in Hq.
  cbn [trace outcome fst snd]. unfold model_calls in *.
  rewrite omap_app, Hq. by repeat split.
Qed.

Lemma converting_failure_skips_stylist_witness :
  let good := PDict {[ "amount" := PFloat 2; "unit" := PStr "cups";
                       "to_unit" := PStr "grams" ]} in
  let bad := PDict {[ "amount" := PFloat 1; "unit" := PNone;
                      "to_unit" := PStr "grams" ]} in
  let p := {| conversion_list := [good; bad; good]; substitution_map := [] |} in
  let g := provider_answering p "(the final recipe)" in
  outcome (run_recipe_adapter_workflow g ORIGINAL_RECIPE TARGET_STYLE)
  = inl AttributeError
  /\ model_calls (trace (run_recipe_adapter_workflow g ORIGINAL_RECIPE TARGET_STYLE))
     = [planner_request g ORIGINAL_RECIPE TARGET_STYLE]
  /\ tool_calls (trace (run_recipe_adapter_workflow g ORIGINAL_RECIPE TARGET_STYLE))
     = [(2%float, PStr "cups"); (1%float, PNone)].
Proof.
  intros good bad p g.
  exact (converting_failure_skips_stylist g ORIGINAL_RECIPE TARGET_STYLE
           {| text := "(the plan, as JSON)"; parsed := Some p |} p
           (tool_trace 2 "cups"
            ++ [ ToolCall 1 PNone;
                 Print [Lit "⚙️ TOOL ACTIVATED: Converting "; Fmt (PFloat 1); Lit " ";
                        Fmt PNone; Lit "..."] ])
           AttributeError eq_refl eq_refl eq_refl).
Defined.

(** If the Stylist's model call raises, the run ends with that exception
    after both model calls and all conversions: nothing is returned and none
    of the final output is printed. *)
Theorem styling_failure_aborts (g : Globals) (original_recipe target_style : string)
    (response : Response) (p : PlanningResult) (t : list event)
    (notes : list fstring) (e : exn) :
  answer (client g) (planner_request g original_recipe target_style) = inr response ->
  parsed response = Some p ->
  convert_entries (conversion_list p) [] = (t, inr notes) ->
  answer (client g)
    (stylist_request g original_recipe target_style (substitution_map p) notes)
  = inl e ->
  run_recipe_adapter_workflow g original_recipe target_style
  = ([banner_planner;
      GenerateContent (planner_request g original_recipe target_style);
      banner_tool]
     ++ t
     ++ [banner_stylist;
         GenerateContent
           (stylist_request g original_recipe target_style (substitution_map p) notes)],
     inl e).
Proof.
  intros H Hp Hc Hs.
  rewrite (run_styling g original_recipe target_style response p t notes H Hp Hc).
  by rewrite Hs.
Qed.

Lemma styling_failure_aborts_witness :
  let g := provider_failing_stylist mock_data (ProviderError "quota exceeded") in
  run_recipe_adapter_workflow g ORIGINAL_RECIPE TARGET_STYLE
  = ([banner_planner;
      GenerateContent (planner_request g ORIGINAL_RECIPE TARGET_STYLE);
      banner_tool]
     ++ tool_trace 2 "cups"
     ++ [banner_stylist;
         GenerateContent
           (stylist_request g ORIGINAL_RECIPE TARGET_STYLE
              (substitution_map mock_data) [mock_note])],
     inl (ProviderError "quota exceeded")).
Proof.
  intros g.
  exact (styling_failure_aborts g ORIGINAL_RECIPE TARGET_STYLE
           {| text := "(the plan, as JSON)"; parsed := Some mock_data |} mock_data
           (tool_trace 2 "cups") [mock_note] (ProviderError "quota exceeded")
           eq_refl eq_refl eq_refl eq_refl).
Defined.

(** In every run the model is called once or twice, first with the
    Planner's request, and the tool is called by the conversion stage only:
    its calls are the calls of the loop over the plan's conversion list, and
    there is none when PLANNING gave no plan. *)
Theorem run_calls (g : Globals) (original_recipe target_style : string) :
  (exists rest,
     model_calls (trace (run_recipe_adapter_workflow g original_recipe target_style))
     = planner_request g original_recipe target_style :: rest
     /\ length rest <= 1)
  /\ tool_calls (trace (run_recipe_adapter_workflow g original_recipe target_style))
     = match answer (client g) (planner_request g original_recipe target_style) with
       | inr {| parsed := Some p |} =>
           tool_calls (trace (convert_entries (conversion_list p) []))
       | _ => []
       end.
Proof.
  run_cases g original_recipe target_style.
  - split; [exists []; split; [done|cbn; lia]|done].
  - pose proof (no_model_call_entries (conversion_list p) []) as Hq.
    unfold no_model_call in Hq. rewrite Hconv in Hq. cbn [trace fst] in Hq.
    destruct response as [txt prs]. cbn in Hparsed. subst prs. cbn [trace fst].
    split; [exists []; unfold model_calls in *; rewrite omap_app, Hq; split; [done|cbn; lia]|].
    by rewrite Hconv, tool_calls_app.
  - pose proof (no_model_call_entries (conversion_list p) []) as Hq.
    unfold no_model_call in Hq. rewrite Hconv in Hq. cbn [trace fst] in Hq.
    destruct response as [txt prs]. cbn in Hparsed. subst prs. cbn [trace fst].
    split.
    + eexists. unfold model_calls in *. rewrite !omap_app, Hq. cbn. split; [reflexivity|].
      cbn. lia.
    + rewrite Hconv, !tool_calls_app. cbn. by rewrite app_nil_r.
  - pose proof (no_model_call_entries (conversion_list p) []) as Hq.
    unfold no_model_call in Hq. rewrite Hconv in Hq. cbn [trace fst] in Hq.
    destruct response as [txt prs]. cbn in Hparsed. subst prs. cbn [trace fst].
    split.
    + eexists. unfold model_calls in *. rewrite !omap_app, Hq. cbn. split; [reflexivity|].
      cbn. lia.
    + rewrite Hconv, !tool_calls_app. cbn. by rewrite app_nil_r.
  - destruct response as [txt prs]. cbn in Hparsed. subst prs.
    split; [exists []; split; [done|cbn; lia]|done].
Qed.

(** ** The agent execution utility *)

(** [run_agent] calls the model exactly once and never the tool, whatever
    the client does; it does not retry, and a provider exception is its own
    exception, unchanged. *)
Theorem run_agent_calls_once (g : Globals) (agent_name : string)
    (system_prompt prompt : fstring) (output_schema : option BaseModel) :
  let request := agent_request g agent_name system_prompt prompt output_schema in
  trace (run_agent g agent_name system_prompt prompt output_schema)
  = [GenerateContent request]
  /\ match answer (client g) request with
     | inl e =>
         outcome (run_agent g agent_name system_prompt prompt output_schema) = inl e
     | inr response =>
         accepted (outcome (run_agent g agent_name system_prompt prompt output_schema))
         = true
     end.
Proof. cbv zeta. rewrite run_agent_eq. by destruct (answer _ _). Qed.

(** The request carries [response_schema], together with the JSON mime type,
    exactly when a schema was passed; otherwise its config is empty. *)
Theorem run_agent_config (g : Globals) (agent_name : string)
    (system_prompt prompt : fstring) (output_schema : option BaseModel) :
  exists kw config,
    model_calls (trace (run_agent g agent_name system_prompt prompt output_schema))
    = [kw]
    /\ kw_config kw = Some config
    /\ kw_model kw = API_MODEL_NAME g
    /\ config !! "response_schema" = CfgSchema <$> output_schema
    /\ config !! "response_mime_type"
       = (λ _, CfgStr "application/json") <$> output_schema
    /\ size config = match output_schema with Some _ => 2 | None => 0 end.
Proof.
  rewrite run_agent_eq. cbn [trace fst]. eexists. eexists.
  split; [reflexivity|]. split; [reflexivity|]. split; [reflexivity|].
  destruct output_schema as [cls|]; by repeat split.
Qed.

(** With the mock client, for every agent name and every prompt, [run_agent]
    gives the mock plan when a schema is passed and the placeholder text
    when none is: the mock never reads the prompt. *)
Theorem run_agent_mock (agent_name : string) (system_prompt prompt : fstring)
    (cls : BaseModel) :
  outcome (run_agent mock_mode agent_name system_prompt prompt (Some cls))
  = inr (Parsed (Some mock_data))
  /\ outcome (run_agent mock_mode agent_name system_prompt prompt None)
     = inr (Text "[MOCK OUTPUT: Final Recipe Text]").
Proof. by rewrite !run_agent_eq. Qed.

(** ** Module loading and the process *)

(** Loading the module writes one console line and leaves consistent
    globals: the mock client with the model name MOCK_MODEL, or the client
    that the constructor returned for a non-empty key, with the provider's
    model name. *)
Theorem load_module_globals (environ_get : option string)
    (genai_Client : string -> exn + (kwargs -> exn + Response))
    (t : list event) (g : Globals) :
  load_module environ_get genai_Client = (t, inr g) ->
  length (printed t) = 1
  /\ length t = 1
  /\ (g = mock_mode
      \/ exists key c,
           environ_get = Some key /\ key <> "" /\ genai_Client key = inr c
           /\ g = {| client := GenaiClient c; API_MODEL_NAME := "gemini-2.5-flash" |}).
Proof.
  unfold load_module. destruct environ_get as [key|].
  - destruct (bool_decide (key = "")) eqn:Hk.
    + intros [= <- <-]. auto.
    + apply bool_decide_eq_false_1 in Hk.
      destruct (genai_Client key) as [e|c] eqn:Hc.
      * destruct (is_Exception e); [|discriminate]. intros [= <- <-]. auto.
      * intros [= <- <-]. repeat split; [done..|]. right. by exists key, c.
  - intros [= <- <-]. auto.
Qed.

Lemma load_module_globals_witness :
  let models : kwargs -> exn + Response := λ _, inl (ProviderError "unavailable") in
  load_module (Some "a-key") (λ _, inr models)
  = ([Print [Lit "✅ Gemini Client initialized successfully with API Key."]],
     inr {| client := GenaiClient models; API_MODEL_NAME := "gemini-2.5-flash" |})
  /\ length (printed [Print [Lit "✅ Gemini Client initialized successfully with API Key."]]) = 1.
Proof.
  intros models.
  assert (H : load_module (Some "a-key") (λ _, inr models)
              = ([Print [Lit "✅ Gemini Client initialized successfully with API Key."]],
                 inr {| client := GenaiClient models;
                        API_MODEL_NAME := "gemini-2.5-flash" |})) by reflexivity.
  split; [exact H|].
  exact (proj1 (load_module_globals _ _ _ _ H)).
Defined.

(** Loading the module raises only what the [except Exception] clause lets
    through: an exception of the constructor, called on a non-empty key,
    that does not derive from [Exception]; nothing has been printed then. *)
Theorem load_module_raises (environ_get : option string)
    (genai_Client : string -> exn + (kwargs -> exn + Response))
    (t : list event) (e : exn) :
  load_module environ_get genai_Client = (t, inl e) ->
  t = [] /\ is_Exception e = false
  /\ exists key, environ_get = Some key /\ key <> "" /\ genai_Client key = inl e.
Proof.
  unfold load_module. destruct environ_get as [key|]; [|discriminate].
  destruct (bool_decide (key = "")) eqn:Hk; [discriminate|].
  apply bool_decide_eq_false_1 in Hk.
  destruct (genai_Client key) as [e'|c] eqn:Hc; [|discriminate].
  destruct (is_Exception e') eqn:He; [discriminate|].
  intros [= <- <-]. repeat split; [done|]. by exists key.
Qed.

Lemma load_module_raises_witness :
  load_module (Some "a-key") (λ _, inl KeyboardInterrupt) = ([], inl KeyboardInterrupt)
  /\ is_Exception KeyboardInterrupt = false.
Proof.
  assert (H : load_module (Some "a-key") (λ _, inl KeyboardInterrupt)
              = ([], inl KeyboardInterrupt)) by reflexivity.
  split; [exact H|].
  exact (proj1 (proj2 (load_module_raises _ _ _ _ H))).
Defined.

(** Without a key in the environment, or with an empty one, the process
    runs in mock mode whatever the constructor would do (it is not called):
    it warns once, then runs the workflow with the mock client, and
    completes, for every recipe and style. *)
Theorem main_without_key
    (genai_Client : string -> exn + (kwargs -> exn + Response))
    (original_recipe target_style : string) :
  main None genai_Client original_recipe target_style
  = (no_key_line :: mock_run_trace original_recipe target_style, inr PNone)
  /\ main (Some "") genai_Client original_recipe target_style
     = (no_key_line :: mock_run_trace original_recipe target_style, inr PNone).
Proof.
  unfold main. split.
  - by rewrite (bind_inr (load_module None genai_Client) _ [no_key_line] mock_mode eq_refl),
      mock_run.
  - by rewrite (bind_inr (load_module (Some "") genai_Client) _ [no_key_line] mock_mode
                  eq_refl), mock_run.
Qed.

Lemma planning_without_plan_aborts_witness :
  let g := {| client := GenaiClient (λ _, inr {| text := "I cannot help with that.";
                                                 parsed := None |});
              API_MODEL_NAME := "gemini-2.5-flash" |} in
  outcome (run_recipe_adapter_workflow g ORIGINAL_RECIPE TARGET_STYLE)
  = inl AttributeError
  /\ tool_calls (trace (run_recipe_adapter_workflow g ORIGINAL_RECIPE TARGET_STYLE)) = []
  /\ model_calls (trace (run_recipe_adapter_workflow g ORIGINAL_RECIPE TARGET_STYLE))
     = [planner_request g ORIGINAL_RECIPE TARGET_STYLE].
Proof.
  intros g.
  exact (planning_without_plan_aborts g ORIGINAL_RECIPE TARGET_STYLE
           {| text := "I cannot help with that."; parsed := None |} eq_refl eq_refl).
Defined.

(** ** Mock mode and the schema, for every input *)

(** A run with the mock client does not depend on its inputs: for any two
    recipes and styles the console output and the outcome are the same, and
    the one tool call is the conversion of the mock plan's two cups. *)
Theorem mock_run_ignores_input (recipe1 style1 recipe2 style2 : string) :
  printed (trace (run_recipe_adapter_workflow mock_mode recipe1 style1))
  = printed (trace (run_recipe_adapter_workflow mock_mode recipe2 style2))
  /\ outcome (run_recipe_adapter_workflow mock_mode recipe1 style1)
     = outcome (run_recipe_adapter_workflow mock_mode recipe2 style2)
  /\ tool_calls (trace (run_recipe_adapter_workflow mock_mode recipe1 style1))
     = [(2%float, PStr "cups")].
Proof. by rewrite !mock_run. Qed.

(** Every plan, not the mock plan alone, survives the round trip through its
    dump: the dump validates against the schema and reads back as the same
    plan, so the dump of the substitution list that the Stylist is given
    determines the list. *)
Theorem plan_dump_round_trip (p : PlanningResult) :
  Schema.PlanningResult_model_validate (Schema.PlanningResult_model_dump p) = inr p
  /\ Schema.validate_all (map Schema.Substitution_model_dump (substitution_map p))
     = inr (substitution_map p).
Proof. split; [apply PlanningResult_round_trip|apply validate_all_round_trip]. Qed.
